(** * Secret authorization dispatch and blind indexing

    A shallow embedding of [backend/src/helpers/secrets.ts]:
    [validateClientForSecret], [validateClientForSecrets],
    [createSecretBlindIndexHelper] and [getSecretBlindIndexHelper].

    The four functions are [async]: every [await] hands control to a
    collaborator (the Mongo models, the per-principal validators, the
    [crypto] and [argon2] packages).  They are embedded as programs of a
    small free monad [Prog] whose only effects are such awaited calls and
    [throw]; [run] interprets a program against a [World] that answers the
    calls and records, in order, every call that was made. *)

From Stdlib Require Import NArith Strings.Byte Ascii String.
From stdpp Require Import base numbers list strings.

Local Open Scope string_scope.
Local Open Scope list_scope.

(** ** Data model *)

(** [Types.ObjectId]: a 12-byte identifier, taken as the number it encodes;
    Mongo compares identifiers by value. *)
Abbreviation ObjectId := N (only parsing).

(** The accepted workspace roles, [Array<'admin' | 'member'>]. *)
Inductive Role := admin | member.

(** Modelled from the spec: the documents of the [models] module, which the
    source imports but which is not part of the source file.  A secret has an
    identifier, an owning workspace, an environment tag and a blind-index
    value; the principals are identified documents. *)
Record ISecret := {
  _id : ObjectId;
  workspace : ObjectId;
  environment : string;
  secretBlindIndex : string
}.

Record IUser := { user_id : ObjectId }.
Record IServiceAccount := { serviceAccount_id : ObjectId }.
Record IServiceTokenData := { serviceTokenData_id : ObjectId }.
Record ISecretBlindIndexData := {
  blindIndexData_workspace : ObjectId;
  blindIndexData_salt : list byte
}.

(** [authData.authPayload]: what [instanceof] can tell about the value at run
    time.  The static type only promises one of the three interfaces, so a
    value that is an instance of none of the three model classes is possible
    too. *)
Inductive AuthPayload :=
| UserDocument (user : IUser)
| ServiceAccountDocument (serviceAccount : IServiceAccount)
| ServiceTokenDataDocument (serviceTokenData : IServiceTokenData)
| PlainObject.

Record AuthData := {
  authMode : string;
  authPayload : AuthPayload
}.

(** [authPayload instanceof User] and its two siblings, returning the
    narrowed value. *)
Definition instanceofUser (p : AuthPayload) : option IUser :=
  match p with UserDocument u => Some u | _ => None end.

Definition instanceofServiceAccount (p : AuthPayload) : option IServiceAccount :=
  match p with ServiceAccountDocument a => Some a | _ => None end.

Definition instanceofServiceTokenData (p : AuthPayload) : option IServiceTokenData :=
  match p with ServiceTokenDataDocument t => Some t | _ => None end.

(** Modelled from the spec: the error constructors of [utils/errors], which
    is not part of the source file.  The taxonomy has [NotFound],
    [BadRequest] and [Unauthorized]; a collaborator may throw anything
    else. *)
Inductive ErrorName :=
| BadRequest
| Unauthorized
| NotFound
| OtherError (name : string).

Record RequestError := {
  errorName : ErrorName;
  message : string
}.

Definition BadRequestError (msg : string) : RequestError :=
  {| errorName := BadRequest; message := msg |}.
Definition UnauthorizedRequestError (msg : string) : RequestError :=
  {| errorName := Unauthorized; message := msg |}.
Definition SecretNotFoundError (msg : string) : RequestError :=
  {| errorName := NotFound; message := msg |}.

(** The four authentication-mode tags of the [variables] module.  Their
    string values are not in the source file, so they are parameters. *)
Class AuthModes := {
  AUTH_MODE_JWT : string;
  AUTH_MODE_SERVICE_ACCOUNT : string;
  AUTH_MODE_SERVICE_TOKEN : string;
  AUTH_MODE_API_KEY : string
}.

(** The options object given to [argon2.hash]. *)
Inductive Argon2Type := argon2d | argon2i | argon2id.

Record Argon2Options := {
  type : Argon2Type;
  salt : list byte;
  saltLength : nat;
  memoryCost : N;
  hashLength : nat;
  parallelism : nat;
  raw : bool
}.

(** ** Awaited calls *)

(** One constructor per call the source awaits (or, for
    [crypto.randomBytes], performs synchronously), indexed by the type of
    the value the call resolves to. *)
Inductive ExtCall : Type -> Type :=
| Secret_findById (id : ObjectId) : ExtCall (option ISecret)
| Secret_find_id_in (ids : list ObjectId) : ExtCall (list ISecret)
| SecretBlindIndexData_findOne (workspaceId : ObjectId)
    : ExtCall (option ISecretBlindIndexData)
| validateUserClientForSecret
    (user : IUser) (secret : ISecret)
    (acceptedRoles : list Role) (requiredPermissions : list string)
    : ExtCall unit
| validateUserClientForSecrets
    (user : IUser) (secrets : list ISecret) (requiredPermissions : list string)
    : ExtCall unit
| validateServiceAccountClientForWorkspace
    (serviceAccount : IServiceAccount) (workspaceId : ObjectId)
    (environment : string) (requiredPermissions : list string)
    : ExtCall unit
| validateServiceAccountClientForSecrets
    (serviceAccount : IServiceAccount) (secrets : list ISecret)
    (requiredPermissions : list string)
    : ExtCall unit
| validateServiceTokenDataClientForWorkspace
    (serviceTokenData : IServiceTokenData) (workspaceId : ObjectId)
    (environment : string)
    : ExtCall unit
| validateServiceTokenDataClientForSecrets
    (serviceTokenData : IServiceTokenData) (secrets : list ISecret)
    (requiredPermissions : list string)
    : ExtCall unit
| crypto_randomBytes (size : nat) : ExtCall (list byte)
| argon2_hash (plain : string) (options : Argon2Options) : ExtCall (list byte).

Inductive Event :=
| Called {X : Type} (c : ExtCall X).

(** The calls that are authorization checks. *)
Definition isValidatorCall (e : Event) : bool :=
  match e with
  | Called (validateUserClientForSecret _ _ _ _)
  | Called (validateUserClientForSecrets _ _ _)
  | Called (validateServiceAccountClientForWorkspace _ _ _ _)
  | Called (validateServiceAccountClientForSecrets _ _ _)
  | Called (validateServiceTokenDataClientForWorkspace _ _ _)
  | Called (validateServiceTokenDataClientForSecrets _ _ _) => true
  | _ => false
  end.

(** The [requiredPermissions] argument of a call, when the call has one. *)
Definition permissionsPassed (e : Event) : option (list string) :=
  match e with
  | Called (validateUserClientForSecret _ _ _ ps)
  | Called (validateUserClientForSecrets _ _ ps)
  | Called (validateServiceAccountClientForWorkspace _ _ _ ps)
  | Called (validateServiceAccountClientForSecrets _ _ ps)
  | Called (validateServiceTokenDataClientForSecrets _ _ ps) => Some ps
  | _ => None
  end.

(** ** Programs *)

(** How an awaited call, or a whole function, finishes. *)
Inductive Completion (A : Type) :=
| Normal (a : A)
| Thrown (e : RequestError).
Arguments Normal {A} a.
Arguments Thrown {A} e.

(** The source has no [try], so a program is a value, a [throw], or an
    awaited call followed by the rest of the function. *)
Inductive Prog (A : Type) : Type :=
| Return (a : A)
| Throw (e : RequestError)
| Await {X : Type} (c : ExtCall X) (k : X -> Prog A).
Arguments Return {A} a.
Arguments Throw {A} e.
Arguments Await {A X} c k.

Fixpoint bind {A B : Type} (p : Prog A) (f : A -> Prog B) : Prog B :=
  match p with
  | Return a => f a
  | Throw e => Throw e
  | Await c k => Await c (fun x => bind (k x) f)
  end.

Definition await {X : Type} (c : ExtCall X) : Prog X := Await c Return.

Declare Scope prog_scope.
Delimit Scope prog_scope with prog.
Notation "x <- p ;; q" := (bind p (fun x => q))
  (at level 100, p at next level, right associativity) : prog_scope.
Notation "p ;; q" := (bind p (fun _ => q))
  (at level 100, right associativity) : prog_scope.
Local Open Scope prog_scope.

(** [if (tag && payload instanceof C) { body }], falling through to the
    statements after the [if] otherwise; [body] ends in [return]. *)
Definition ifInstance {P A : Type} (tag : bool) (narrowed : option P)
    (body : P -> Prog A) (rest : Prog A) : Prog A :=
  match tag, narrowed with
  | true, Some p => body p
  | _, _ => rest
  end.

(** ** [Buffer.prototype.toString('base64')] *)

Definition base64Alphabet : string :=
  "ABCDEFGHIJKLMNOPQRSTUVWXYZabcdefghijklmnopqrstuvwxyz0123456789+/".

Definition base64Char (i : N) : ascii :=
  match String.get (N.to_nat i) base64Alphabet with
  | Some c => c
  | None => "="%char
  end.

Definition sextet (n : N) (shift : N) : ascii :=
  base64Char (N.land (N.shiftr n shift) 63).

Fixpoint toBase64 (bs : list byte) : string :=
  match bs with
  | [] => ""
  | [a] =>
      let n := N.shiftl (Byte.to_N a) 16 in
      String (sextet n 18) (String (sextet n 12) "==")
  | [a; b] =>
      let n := N.lor (N.shiftl (Byte.to_N a) 16) (N.shiftl (Byte.to_N b) 8) in
      String (sextet n 18) (String (sextet n 12) (String (sextet n 6) "="))
  | a :: b :: c :: rest =>
      let n := N.lor (N.lor (N.shiftl (Byte.to_N a) 16)
                            (N.shiftl (Byte.to_N b) 8)) (Byte.to_N c) in
      String (sextet n 18) (String (sextet n 12)
        (String (sextet n 6) (String (sextet n 0) (toBase64 rest))))
  end.

(** The number of characters [toBase64] produces for [n] bytes: four per
    started group of three. *)
Fixpoint base64Length (n : nat) : nat :=
  match n with
  | 0 => 0
  | 1 | 2 => 4
  | S (S (S m)) => 4 + base64Length m
  end.

(** ** The source functions *)

Section Helpers.
Context {M : AuthModes}.

Definition validateClientForSecret (authData : AuthData) (secretId : ObjectId)
    (acceptedRoles : list Role) (requiredPermissions : list string)
    : Prog ISecret :=
  found <- await (Secret_findById secretId) ;;
  match found with
  | None => Throw (SecretNotFoundError "Failed to find secret")
  | Some secret =>
    ifInstance (String.eqb (authMode authData) AUTH_MODE_JWT)
               (instanceofUser (authPayload authData))
      (fun user =>
         await (validateUserClientForSecret
                  user secret acceptedRoles requiredPermissions) ;;
         Return secret)
    (ifInstance (String.eqb (authMode authData) AUTH_MODE_SERVICE_ACCOUNT)
                (instanceofServiceAccount (authPayload authData))
      (fun serviceAccount =>
         await (validateServiceAccountClientForWorkspace
                  serviceAccount (workspace secret) (environment secret)
                  requiredPermissions) ;;
         Return secret)
    (ifInstance (String.eqb (authMode authData) AUTH_MODE_SERVICE_TOKEN)
                (instanceofServiceTokenData (authPayload authData))
      (fun serviceTokenData =>
         await (validateServiceTokenDataClientForWorkspace
                  serviceTokenData (workspace secret) (environment secret)) ;;
         Return secret)
    (ifInstance (String.eqb (authMode authData) AUTH_MODE_API_KEY)
                (instanceofUser (authPayload authData))
      (fun user =>
         await (validateUserClientForSecret
                  user secret acceptedRoles requiredPermissions) ;;
         Return secret)
    (Throw (UnauthorizedRequestError
              "Failed client authorization for secret")))))
  end.

Definition validateClientForSecrets (authData : AuthData)
    (secretIds : list ObjectId) (requiredPermissions : list string)
    : Prog (list ISecret) :=
  secrets <- await (Secret_find_id_in secretIds) ;;
  if negb (length secrets =? length secretIds)%nat then
    Throw (BadRequestError "Failed to validate non-existent secrets")
  else
    ifInstance (String.eqb (authMode authData) AUTH_MODE_JWT)
               (instanceofUser (authPayload authData))
      (fun user =>
         await (validateUserClientForSecrets
                  user secrets requiredPermissions) ;;
         Return secrets)
    (ifInstance (String.eqb (authMode authData) AUTH_MODE_SERVICE_ACCOUNT)
                (instanceofServiceAccount (authPayload authData))
      (fun serviceAccount =>
         await (validateServiceAccountClientForSecrets
                  serviceAccount secrets requiredPermissions) ;;
         Return secrets)
    (ifInstance (String.eqb (authMode authData) AUTH_MODE_SERVICE_TOKEN)
                (instanceofServiceTokenData (authPayload authData))
      (fun serviceTokenData =>
         await (validateServiceTokenDataClientForSecrets
                  serviceTokenData secrets requiredPermissions) ;;
         Return secrets)
    (ifInstance (String.eqb (authMode authData) AUTH_MODE_API_KEY)
                (instanceofUser (authPayload authData))
      (fun user =>
         await (validateUserClientForSecrets
                  user secrets requiredPermissions) ;;
         Return secrets)
    (Throw (UnauthorizedRequestError
              "Failed client authorization for secrets resource"))))).

End Helpers.

(** [workspaceId] is a parameter the body never reads: the lookup of the
    workspace's blind-index data is commented out in the source. *)
Definition createSecretBlindIndexHelper (secretName : string)
    (workspaceId : ObjectId) : Prog string :=
  randomBytes <- await (crypto_randomBytes 16) ;;
  digest <- await (argon2_hash secretName
                     {| type := argon2id;
                        salt := randomBytes;
                        saltLength := 16;
                        memoryCost := 65536%N;
                        hashLength := 32;
                        parallelism := 1;
                        raw := true |}) ;;
  Return (toBase64 digest).

(** The body loads the workspace's blind-index data, has an empty [if] on
    it, and ends without a [return]: the promise resolves to [undefined]. *)
Definition getSecretBlindIndexHelper (secretName : string)
    (workspaceId : ObjectId) : Prog unit :=
  secretBlindIndexData <- await (SecretBlindIndexData_findOne workspaceId) ;;
  match secretBlindIndexData with
  | None => Return tt
  | Some _ => Return tt
  end.

(** ** Worlds and runs *)

(** What the collaborators answer.  The two collections are the documents
    Mongo holds; [validators] says, for every authorization call, whether it
    returns or what it throws; [entropy k n] is the result of the [k]-th call
    of [crypto.randomBytes], asked for [n] bytes; [argon2] is the raw digest
    of [argon2.hash]. *)
Record World := {
  SecretCollection : list ISecret;
  SecretBlindIndexDataCollection : list ISecretBlindIndexData;
  validators : ExtCall unit -> Completion unit;
  entropy : nat -> nat -> list byte;
  argon2 : string -> Argon2Options -> list byte
}.

(** [Secret.findById(id)]: the document with that [_id], or [null]. *)
Definition findById (w : World) (id : ObjectId) : option ISecret :=
  head (filter (λ s, _id s = id) (SecretCollection w)).

(** [Secret.find({ _id: { $in: ids } })]: the documents of the collection
    whose [_id] is among [ids], each document once, in collection order. *)
Definition findIn (w : World) (ids : list ObjectId) : list ISecret :=
  filter (λ s, _id s ∈ ids) (SecretCollection w).

(** [SecretBlindIndexData.findOne({ workspace })]. *)
Definition findOneBlindIndexData (w : World) (workspaceId : ObjectId)
    : option ISecretBlindIndexData :=
  head (filter (λ d, blindIndexData_workspace d = workspaceId)
               (SecretBlindIndexDataCollection w)).

(** The answer to one call by collaborators that respond; [draws] counts
    the calls of [crypto.randomBytes] made so far. *)
Definition answer (w : World) (draws : nat) {X : Type} (c : ExtCall X)
    : Completion X * nat :=
  match c in ExtCall X return Completion X * nat with
  | Secret_findById id => (Normal (findById w id), draws)
  | Secret_find_id_in ids => (Normal (findIn w ids), draws)
  | SecretBlindIndexData_findOne ws =>
      (Normal (findOneBlindIndexData w ws), draws)
  | validateUserClientForSecret u s rs ps =>
      (validators w (validateUserClientForSecret u s rs ps), draws)
  | validateUserClientForSecrets u ss ps =>
      (validators w (validateUserClientForSecrets u ss ps), draws)
  | validateServiceAccountClientForWorkspace a ws env ps =>
      (validators w (validateServiceAccountClientForWorkspace a ws env ps),
       draws)
  | validateServiceAccountClientForSecrets a ss ps =>
      (validators w (validateServiceAccountClientForSecrets a ss ps), draws)
  | validateServiceTokenDataClientForWorkspace t ws env =>
      (validators w (validateServiceTokenDataClientForWorkspace t ws env),
       draws)
  | validateServiceTokenDataClientForSecrets t ss ps =>
      (validators w (validateServiceTokenDataClientForSecrets t ss ps), draws)
  | crypto_randomBytes size => (Normal (entropy w draws size), S draws)
  | argon2_hash plain options => (Normal (argon2 w plain options), draws)
  end.

Record Run (A : Type) := {
  outcome : Completion A;
  trace : list Event;
  drawn : nat
}.
Arguments outcome {A} r.
Arguments trace {A} r.
Arguments drawn {A} r.

(** A rejected [await] rejects the whole function with the same error. *)
Fixpoint run {A : Type} (w : World) (draws : nat) (p : Prog A) : Run A :=
  match p with
  | Return a => {| outcome := Normal a; trace := []; drawn := draws |}
  | Throw e => {| outcome := Thrown e; trace := []; drawn := draws |}
  | Await c k =>
      match answer w draws c with
      | (Normal x, draws') =>
          let r := run w draws' (k x) in
          {| outcome := outcome r;
             trace := Called c :: trace r;
             drawn := drawn r |}
      | (Thrown e, draws') =>
          {| outcome := Thrown e; trace := [Called c]; drawn := draws' |}
      end
  end.

(** The authorization calls of a trace. *)
Definition validatorCalls (t : list Event) : list Event :=
  List.filter isValidatorCall t.

(** [answer] describes collaborators that respond: the database returns what
    it holds, [crypto] and [argon2] return bytes, and only validators throw.
    The source awaits every call outside any [try], so a call that rejects
    for a reason of its own (a lost connection, say) rejects the function
    too.  A [Handler] answers every call in any way, rejections included,
    and [runWith] is [run] over such a handler. *)
Definition Handler : Type :=
  nat → ∀ X : Type, ExtCall X → Completion X * nat.

Definition answering (w : World) : Handler :=
  λ draws X c, answer w draws c.

Fixpoint runWith {A : Type} (h : Handler) (draws : nat) (p : Prog A) : Run A :=
  match p with
  | Return a => {| outcome := Normal a; trace := []; drawn := draws |}
  | Throw e => {| outcome := Thrown e; trace := []; drawn := draws |}
  | Await c k =>
      match h draws _ c with
      | (Normal x, draws') =>
          let r := runWith h draws' (k x) in
          {| outcome := outcome r;
             trace := Called c :: trace r;
             drawn := drawn r |}
      | (Thrown e, draws') =>
          {| outcome := Thrown e; trace := [Called c]; drawn := draws' |}
      end
  end.

(** ** Properties of contexts and requests *)

Section Contexts.
Context {M : AuthModes}.

(** The kind tag is one of the four recognized ones and the payload is of
    the type that kind carries: a user for the session and the API-key
    kinds, a service account, a service token. *)
Definition kindAgrees (a : AuthData) : bool :=
  match authPayload a with
  | UserDocument _ =>
      String.eqb (authMode a) AUTH_MODE_JWT
      || String.eqb (authMode a) AUTH_MODE_API_KEY
  | ServiceAccountDocument _ =>
      String.eqb (authMode a) AUTH_MODE_SERVICE_ACCOUNT
  | ServiceTokenDataDocument _ =>
      String.eqb (authMode a) AUTH_MODE_SERVICE_TOKEN
  | PlainObject => false
  end.

Definition jwtContext (u : IUser) : AuthData :=
  {| authMode := AUTH_MODE_JWT; authPayload := UserDocument u |}.

Definition apiKeyContext (u : IUser) : AuthData :=
  {| authMode := AUTH_MODE_API_KEY; authPayload := UserDocument u |}.

Definition serviceTokenContext (t : IServiceTokenData) : AuthData :=
  {| authMode := AUTH_MODE_SERVICE_TOKEN;
     authPayload := ServiceTokenDataDocument t |}.

End Contexts.

(** No authorization call of the trace was given a permission list. *)
Definition passesNoPermissions (t : list Event) : Prop :=
  Forall (λ e, permissionsPassed e = None) (validatorCalls t).

(** The options [createSecretBlindIndexHelper] hashes with, for a given
    salt. *)
Definition blindIndexOptions (saltBytes : list byte) : Argon2Options :=
  {| type := argon2id;
     salt := saltBytes;
     saltLength := 16;
     memoryCost := 65536%N;
     hashLength := 32;
     parallelism := 1;
     raw := true |}.


(** Mongo keeps [_id] unique within a collection. *)
Definition uniqueIds (w : World) : Prop :=
  NoDup (_id <$> SecretCollection w).

(** The principal a validator call is made for. *)
Definition principalOf (e : Event) : option AuthPayload :=
  match e with
  | Called (validateUserClientForSecret u _ _ _)
  | Called (validateUserClientForSecrets u _ _) => Some (UserDocument u)
  | Called (validateServiceAccountClientForWorkspace a _ _ _)
  | Called (validateServiceAccountClientForSecrets a _ _) =>
      Some (ServiceAccountDocument a)
  | Called (validateServiceTokenDataClientForWorkspace t _ _)
  | Called (validateServiceTokenDataClientForSecrets t _ _) =>
      Some (ServiceTokenDataDocument t)
  | _ => None
  end.

Definition serviceAccountContext {M : AuthModes} (a : IServiceAccount)
    : AuthData :=
  {| authMode := AUTH_MODE_SERVICE_ACCOUNT;
     authPayload := ServiceAccountDocument a |}.

(** A request names distinct identifiers, each carried by a document of the
    collection. *)
Definition requestResolves (w : World) (ids : list ObjectId) : Prop :=
  NoDup ids ∧ ∀ id, id ∈ ids → id ∈ (_id <$> SecretCollection w).

(** The position of a character in a string, counted from [i]. *)
Fixpoint indexFrom (c : ascii) (s : string) (i : N) : option N :=
  match s with
  | EmptyString => None
  | String d rest =>
      if Ascii.eqb c d then Some i else indexFrom c rest (N.succ i)
  end.

(** The sextet a base64 character stands for; the padding character stands
    for none. *)
Definition base64Index (c : ascii) : option N := indexFrom c base64Alphabet 0.

(** ** A sample deployment *)

Module Sample.

Definition modes : AuthModes := {|
  AUTH_MODE_JWT := "jwt";
  AUTH_MODE_SERVICE_ACCOUNT := "serviceAccount";
  AUTH_MODE_SERVICE_TOKEN := "serviceToken";
  AUTH_MODE_API_KEY := "apiKey"
|}.

#[local] Existing Instance modes.

Definition W1 : ObjectId := 10%N.
Definition W2 : ObjectId := 20%N.

Definition S1 : ISecret :=
  {| _id := 1%N; workspace := W1; environment := "prod";
     secretBlindIndex := "" |}.
Definition S2 : ISecret :=
  {| _id := 2%N; workspace := W1; environment := "dev";
     secretBlindIndex := "" |}.

Definition S3 : ISecret :=
  {| _id := 3%N; workspace := W2; environment := "prod";
     secretBlindIndex := "" |}.

Definition alice : IUser := {| user_id := 100%N |}.
Definition robot : IServiceAccount := {| serviceAccount_id := 200%N |}.
Definition token : IServiceTokenData := {| serviceTokenData_id := 300%N |}.

Definition denied : RequestError :=
  UnauthorizedRequestError "Failed to validate client".

(** Users and service accounts are let through; the service token is scoped
    to [W1] and may read but not write. *)
Definition policy (c : ExtCall unit) : Completion unit :=
  match c with
  | validateServiceTokenDataClientForWorkspace _ ws _ =>
      if (ws =? W1)%N then Normal tt else Thrown denied
  | validateServiceTokenDataClientForSecrets _ _ ps =>
      if bool_decide ("write" ∈ ps) then Thrown denied else Normal tt
  | _ => Normal tt
  end.

(** The [k]-th draw is [n] copies of the byte [k]. *)
Definition counterEntropy (k n : nat) : list byte :=
  replicate n (byte_of_ascii (ascii_of_nat k)).

(** A stand-in for Argon2 that depends on both the salt and the password:
    the first [hashLength] bytes of salt, password and zero padding. *)
Definition prefixHash (plain : string) (options : Argon2Options) : list byte :=
  take (hashLength options)
       (salt options ++ list_byte_of_string plain
          ++ replicate (hashLength options) x00).

Definition world : World :=
  {| SecretCollection := [S1; S2; S3];
     SecretBlindIndexDataCollection :=
       [{| blindIndexData_workspace := W1;
           blindIndexData_salt := replicate 16 x2a |}];
     validators := policy;
     entropy := counterEntropy;
     argon2 := prefixHash |}.

(** The sample deployment with its database out of reach: the two queries
    on the secret collection reject, everything else answers as before. *)
Definition unreachable : RequestError :=
  {| errorName := OtherError "MongoNetworkError";
     message := "connection timed out" |}.

Definition outage : Handler :=
  λ draws X c,
    match c in ExtCall X return Completion X * nat with
    | Secret_findById _ => (Thrown unreachable, draws)
    | Secret_find_id_in _ => (Thrown unreachable, draws)
    | c' => answer world draws c'
    end.

Definition aliceSession : AuthData := jwtContext alice.
Definition aliceApiKey : AuthData := apiKeyContext alice.
Definition tokenContext : AuthData := serviceTokenContext token.

Definition robotContext : AuthData := serviceAccountContext robot.

(** A service-account document presented under the session tag. *)
Definition mistagged : AuthData :=
  {| authMode := AUTH_MODE_JWT; authPayload := ServiceAccountDocument robot |}.

(** A user presented under a tag that is none of the four. *)
Definition unknownKind : AuthData :=
  {| authMode := "oauth"; authPayload := UserDocument alice |}.

End Sample.

(** ** The repository *)

#[local] Arguments findById : simpl never.
#[local] Arguments findIn : simpl never.
#[local] Arguments sextet : simpl never.

Lemma findById_None w id :
  id ∉ (_id <$> SecretCollection w) → findById w id = None.
Proof.
  unfold findById. intros Hid.
  destruct (filter _ _) as [|s l] eqn:Hf; [done|].
  exfalso. apply Hid.
  assert (Hs : s ∈ filter (λ s, _id s = id) (SecretCollection w))
    by (rewrite Hf; left).
  apply list_elem_of_filter in Hs as [<- Hs].
  by apply list_elem_of_fmap_2.
Qed.

Lemma findById_Some w id s :
  findById w id = Some s → s ∈ SecretCollection w ∧ _id s = id.
Proof.
  unfold findById. intros Hh.
  apply head_Some_elem_of in Hh.
  apply list_elem_of_filter in Hh as [? ?]. done.
Qed.

(** ** Blind-index lookup *)

(** C2 (as the code has it): whatever the name and the workspace,
    [getSecretBlindIndexHelper] only loads the workspace's blind-index data
    and resolves to [undefined]; it derives nothing, so it returns no value
    that could equal the one [createSecretBlindIndexHelper] returns. *)
Theorem getSecretBlindIndexHelper_returns_undefined
    (w : World) (draws : nat) (secretName : string) (workspaceId : ObjectId) :
  run w draws (getSecretBlindIndexHelper secretName workspaceId)
  = {| outcome := Normal tt;
       trace := [Called (SecretBlindIndexData_findOne workspaceId)];
       drawn := draws |}.
Proof.
  unfold getSecretBlindIndexHelper. cbn.
  by destruct (findOneBlindIndexData w workspaceId).
Qed.

(** ** Resolution failures *)

Section Dispatch.
Context {M : AuthModes}.

(** C4: a secret identifier that no document of the repository carries
    makes [validateClientForSecret] fail with the not-found error, the
    repository lookup being the only call made. *)
Theorem validateClientForSecret_not_found
    (w : World) (draws : nat) (authData : AuthData) (secretId : ObjectId)
    (acceptedRoles : list Role) (requiredPermissions : list string) :
  secretId ∉ (_id <$> SecretCollection w) →
  let r := run w draws (validateClientForSecret
                          authData secretId acceptedRoles requiredPermissions) in
  outcome r = Thrown (SecretNotFoundError "Failed to find secret")
  ∧ trace r = [Called (Secret_findById secretId)]
  ∧ validatorCalls (trace r) = [].
Proof.
  intros Hid. cbn. rewrite (findById_None _ _ Hid). by cbn.
Qed.

(** C3: when the repository resolves a number of records different from the
    number of requested identifiers, [validateClientForSecrets] fails with
    the bad-request error and the repository query is the only call made:
    no validator has been invoked. *)
Theorem validateClientForSecrets_count_mismatch
    (w : World) (draws : nat) (authData : AuthData)
    (secretIds : list ObjectId) (requiredPermissions : list string) :
  length (findIn w secretIds) ≠ length secretIds →
  let r := run w draws (validateClientForSecrets
                          authData secretIds requiredPermissions) in
  outcome r = Thrown (BadRequestError "Failed to validate non-existent secrets")
  ∧ trace r = [Called (Secret_find_id_in secretIds)]
  ∧ validatorCalls (trace r) = [].
Proof.
  intros Hlen. cbn.
  destruct (Nat.eqb_spec (length (findIn w secretIds)) (length secretIds));
    [done|]. by cbn.
Qed.

(** ** Dispatch on the principal kind *)

#[local] Ltac by_tag :=
  repeat match goal with
  | |- context [String.eqb ?a ?b] => destruct (String.eqb_spec a b)
  | H : context [String.eqb ?a ?b] |- _ => destruct (String.eqb_spec a b)
  end.

#[local] Ltac by_verdict w :=
  repeat match goal with
  | |- context [validators w ?c] => destruct (validators w c) as [[]|?]
  end.

(** C5: a context whose tag is none of the four recognized kinds, or whose
    payload is not of the type its tag announces, is refused with the
    unauthorized error by both operations, once the secret (or the whole
    batch) has been resolved, and no validator is invoked. *)
Theorem unrecognized_context_unauthorized
    (w : World) (draws : nat) (authData : AuthData)
    (secretId : ObjectId) (secret : ISecret) (secretIds : list ObjectId)
    (acceptedRoles : list Role) (requiredPermissions : list string) :
  kindAgrees authData = false →
  findById w secretId = Some secret →
  length (findIn w secretIds) = length secretIds →
  let r1 := run w draws (validateClientForSecret
                           authData secretId acceptedRoles requiredPermissions) in
  let rn := run w draws (validateClientForSecrets
                           authData secretIds requiredPermissions) in
  (outcome r1 = Thrown (UnauthorizedRequestError
                          "Failed client authorization for secret")
   ∧ validatorCalls (trace r1) = [])
  ∧ (outcome rn = Thrown (UnauthorizedRequestError
                            "Failed client authorization for secrets resource")
     ∧ validatorCalls (trace rn) = []).
Proof.
  intros Hkind Hfound Hlen.
  destruct authData as [mode [user|account|token|]];
    unfold kindAgrees in Hkind; cbn in *;
    rewrite Hfound, Hlen, Nat.eqb_refl; cbn;
    by_tag; cbn in *; try discriminate; done.
Qed.


(** C10: a user presented under the session tag and the same user presented
    under the API-key tag are dispatched alike.  The two runs are equal
    (same calls with the same arguments, same outcome) for both operations;
    and once the secret is found, each run calls the user validator with
    the user, the fetched secret, the accepted roles and the required
    permissions, and ends as that call does; once the batch resolves, each
    run calls the batch user validator with the user, the resolved batch and
    the required permissions, and ends as that call does. *)
Theorem jwt_and_api_key_dispatch_alike
    (w : World) (draws : nat) (user : IUser)
    (secretId : ObjectId) (secretIds : list ObjectId)
    (acceptedRoles : list Role) (requiredPermissions : list string) :
  let r1 := run w draws (validateClientForSecret (jwtContext user)
                           secretId acceptedRoles requiredPermissions) in
  let r1' := run w draws (validateClientForSecret (apiKeyContext user)
                            secretId acceptedRoles requiredPermissions) in
  let rn := run w draws (validateClientForSecrets (jwtContext user)
                           secretIds requiredPermissions) in
  let rn' := run w draws (validateClientForSecrets (apiKeyContext user)
                            secretIds requiredPermissions) in
  (r1 = r1' ∧ rn = rn')
  ∧ (∀ secret, findById w secretId = Some secret →
       let c := validateUserClientForSecret
                  user secret acceptedRoles requiredPermissions in
       trace r1 = [Called (Secret_findById secretId); Called c]
       ∧ trace r1' = [Called (Secret_findById secretId); Called c]
       ∧ outcome r1 = match validators w c with
                      | Normal _ => Normal secret
                      | Thrown e => Thrown e
                      end
       ∧ outcome r1' = outcome r1)
  ∧ (length (findIn w secretIds) = length secretIds →
       let c := validateUserClientForSecrets
                  user (findIn w secretIds) requiredPermissions in
       trace rn = [Called (Secret_find_id_in secretIds); Called c]
       ∧ trace rn' = [Called (Secret_find_id_in secretIds); Called c]
       ∧ outcome rn = match validators w c with
                      | Normal _ => Normal (findIn w secretIds)
                      | Thrown e => Thrown e
                      end
       ∧ outcome rn' = outcome rn).
Proof.
  cbn zeta. split; [split; cbn|split].
  - destruct (findById w secretId); cbn; [|done].
    rewrite !String.eqb_refl. by_tag; reflexivity.
  - destruct (negb _); cbn; [done|].
    rewrite !String.eqb_refl. by_tag; reflexivity.
  - intros secret Hfound. cbn. rewrite Hfound. cbn.
    rewrite !String.eqb_refl. by_tag; cbn; by_verdict w; done.
  - intros Hlen. cbn. rewrite Hlen, Nat.eqb_refl. cbn.
    rewrite !String.eqb_refl. by_tag; cbn; by_verdict w; done.
Qed.

(** C6 (amended): for a service-token context, the single-secret path calls
    the service-token validator with the token and the secret's workspace
    and environment only, no permission list; the batch path calls the batch
    validator with the token, the resolved batch and the required
    permissions. *)
Theorem serviceToken_dispatch
    (w : World) (draws : nat) (token : IServiceTokenData)
    (secretId : ObjectId) (secret : ISecret) (secretIds : list ObjectId)
    (acceptedRoles : list Role) (requiredPermissions : list string) :
  findById w secretId = Some secret →
  length (findIn w secretIds) = length secretIds →
  let r1 := run w draws (validateClientForSecret (serviceTokenContext token)
                           secretId acceptedRoles requiredPermissions) in
  let rn := run w draws (validateClientForSecrets (serviceTokenContext token)
                           secretIds requiredPermissions) in
  trace r1 = [Called (Secret_findById secretId);
              Called (validateServiceTokenDataClientForWorkspace
                        token (workspace secret) (environment secret))]
  ∧ passesNoPermissions (trace r1)
  ∧ trace rn = [Called (Secret_find_id_in secretIds);
                Called (validateServiceTokenDataClientForSecrets
                          token (findIn w secretIds) requiredPermissions)].
Proof.
  intros Hfound Hlen. unfold passesNoPermissions. cbn.
  rewrite Hfound, Hlen, Nat.eqb_refl. cbn.
  rewrite !String.eqb_refl. by_tag; cbn; by_verdict w; cbn;
    (split; [reflexivity|]; split; [|reflexivity]);
    repeat constructor.
Qed.

(** ** Duplicate identifiers in a batch *)

Lemma remove_dups_length_le (ids : list N) :
  (length (remove_dups ids) ≤ length ids)%nat.
Proof. induction ids as [|x l IH]; cbn; [done|]. case_decide; cbn; lia. Qed.

Lemma remove_dups_shorter (ids : list N) :
  ¬ NoDup ids → (length (remove_dups ids) < length ids)%nat.
Proof.
  induction ids as [|x l IH]; intros Hdup.
  - destruct Hdup. constructor.
  - cbn. case_decide as Hx.
    + pose proof (remove_dups_length_le l). lia.
    + cbn. assert (Hl : ¬ NoDup l) by (intros ?; apply Hdup; by constructor).
      specialize (IH Hl). lia.
Qed.

(** The query returns every document at most once, so it cannot return as
    many documents as a request that names one of them twice. *)
Lemma findIn_length_duplicate (w : World) (ids : list N) :
  uniqueIds w → ¬ NoDup ids → (length (findIn w ids) < length ids)%nat.
Proof.
  intros Huniq Hdup. unfold findIn.
  rewrite <- (length_fmap _id).
  eapply Nat.le_lt_trans; [|by apply remove_dups_shorter].
  apply submseteq_length, NoDup_submseteq.
  - eapply sublist_NoDup; [exact Huniq|].
    apply fmap_sublist, sublist_filter.
  - intros x (s & -> & Hs)%list_elem_of_fmap.
    apply list_elem_of_filter in Hs as [Hin _].
    by apply elem_of_remove_dups.
Qed.

(** C9: when the requested list names an identifier twice,
    [validateClientForSecrets] fails with the bad-request error whether or
    not every listed secret exists, before any validator is invoked: the
    collection holds one document per identifier, the query returns each
    matching document once, and the count is compared with the length of the
    request. *)
Theorem validateClientForSecrets_duplicate_ids
    (w : World) (draws : nat) (authData : AuthData)
    (secretIds : list ObjectId) (requiredPermissions : list string) :
  uniqueIds w →
  ¬ NoDup secretIds →
  let r := run w draws (validateClientForSecrets
                          authData secretIds requiredPermissions) in
  outcome r = Thrown (BadRequestError "Failed to validate non-existent secrets")
  ∧ validatorCalls (trace r) = [].
Proof.
  intros Huniq Hdup. cbn.
  pose proof (findIn_length_duplicate w secretIds Huniq Hdup) as Hlt.
  destruct (Nat.eqb_spec (length (findIn w secretIds)) (length secretIds));
    [lia|]. by cbn.
Qed.

End Dispatch.

(** ** Blind-index creation *)

Lemma run_createSecretBlindIndexHelper
    (w : World) (draws : nat) (secretName : string) (workspaceId : ObjectId) :
  run w draws (createSecretBlindIndexHelper secretName workspaceId)
  = {| outcome :=
         Normal (toBase64 (argon2 w secretName
                             (blindIndexOptions (entropy w draws 16))));
       trace :=
         [Called (crypto_randomBytes 16);
          Called (argon2_hash secretName
                    (blindIndexOptions (entropy w draws 16)))];
       drawn := S draws |}.
Proof. reflexivity. Qed.

Lemma toBase64_length_steps (bs : list byte) :
  String.length (toBase64 bs) = base64Length (length bs)
  ∧ (∀ a, String.length (toBase64 (a :: bs)) = base64Length (S (length bs)))
  ∧ (∀ a b, String.length (toBase64 (a :: b :: bs))
            = base64Length (S (S (length bs)))).
Proof.
  induction bs as [|c bs (IH0 & IH1 & IH2)].
  - repeat split.
  - split; [apply IH1|]. split; [intros a; apply IH2|].
    intros a b. cbn. by rewrite IH0.
Qed.

Lemma toBase64_length (bs : list byte) :
  String.length (toBase64 bs) = base64Length (length bs).
Proof. apply toBase64_length_steps. Qed.

Lemma base64Length_div (n : nat) : base64Length n = 4 * ((n + 2) `div` 3).
Proof.
  induction (lt_wf n) as [n _ IH].
  destruct n as [|[|[|m]]]; [reflexivity..|].
  cbn [base64Length]. rewrite IH by lia.
  replace (S (S (S m)) + 2) with (m + 2 + 1 * 3) by lia.
  rewrite Nat.div_add by lia. lia.
Qed.


(** C1 (as the code has it): the salt is drawn anew by every call, so in the
    sample deployment two consecutive calls for the same name and workspace
    resolve to different values. *)
Theorem createSecretBlindIndexHelper_fresh_salt_each_call :
  let first := run Sample.world 0
                 (createSecretBlindIndexHelper "DB_PASSWORD" Sample.W1) in
  let second := run Sample.world (drawn first)
                  (createSecretBlindIndexHelper "DB_PASSWORD" Sample.W1) in
  outcome first = Normal "AAAAAAAAAAAAAAAAAAAAAERCX1BBU1NXT1JEAAAAAAA="
  ∧ outcome second = Normal "AQEBAQEBAQEBAQEBAQEBAURCX1BBU1NXT1JEAAAAAAA="
  ∧ outcome first ≠ outcome second.
Proof. vm_compute. repeat split; discriminate. Qed.

(** ** The sample deployment *)

(** A member with the read permission obtains the secret. *)
Example scenario_user_reads_secret :
  outcome (run Sample.world 0
             (validateClientForSecret (M := Sample.modes)
                Sample.aliceSession 1%N [member; admin] ["read"]))
  = Normal Sample.S1.
Proof. reflexivity. Qed.

(** A service token scoped to another workspace is turned away by its
    validator, and the dispatcher hands that error on. *)
Example scenario_token_other_workspace :
  run Sample.world 0
    (validateClientForSecret (M := Sample.modes)
       Sample.tokenContext 3%N [member; admin] ["read"])
  = {| outcome := Thrown Sample.denied;
       trace := [Called (Secret_findById 3%N);
                 Called (validateServiceTokenDataClientForWorkspace
                           Sample.token Sample.W2 "prod")];
       drawn := 0 |}.
Proof. reflexivity. Qed.

(** A batch naming a secret that does not exist is a bad request. *)
Example scenario_batch_with_missing_secret :
  run Sample.world 0
    (validateClientForSecrets (M := Sample.modes)
       Sample.aliceSession [1%N; 9%N] ["read"])
  = {| outcome := Thrown (BadRequestError
                            "Failed to validate non-existent secrets");
       trace := [Called (Secret_find_id_in [1%N; 9%N])];
       drawn := 0 |}.
Proof. reflexivity. Qed.

(** A tag that is none of the four is refused even with a user payload. *)
Example scenario_unknown_kind :
  kindAgrees (M := Sample.modes) Sample.unknownKind = false
  ∧ run Sample.world 0
      (validateClientForSecret (M := Sample.modes)
         Sample.unknownKind 1%N [member; admin] ["read"])
    = {| outcome := Thrown (UnauthorizedRequestError
                              "Failed client authorization for secret");
         trace := [Called (Secret_findById 1%N)];
         drawn := 0 |}.
Proof. split; reflexivity. Qed.

Example toBase64_rfc4648 :
  toBase64 (list_byte_of_string "foobar") = "Zm9vYmFy"
  ∧ toBase64 (list_byte_of_string "fooba") = "Zm9vYmE="
  ∧ toBase64 (list_byte_of_string "foob") = "Zm9vYg=="
  ∧ toBase64 [xfb; xff; xbe] = "+/++".
Proof. repeat split. Qed.

(** ** The theorems at work on the sample deployment *)


Lemma sample_uniqueIds : uniqueIds Sample.world.
Proof. unfold uniqueIds. compute_done. Qed.

Lemma validateClientForSecrets_count_mismatch_witness :
  length (findIn Sample.world [1%N; 9%N]) ≠ length [1%N; 9%N]
  ∧ outcome (run Sample.world 0
               (validateClientForSecrets (M := Sample.modes)
                  Sample.aliceSession [1%N; 9%N] ["read"]))
    = Thrown (BadRequestError "Failed to validate non-existent secrets").
Proof.
  assert (Hne : length (findIn Sample.world [1%N; 9%N]) ≠ length [1%N; 9%N])
    by (vm_compute; lia).
  split; [exact Hne|].
  exact (proj1 (validateClientForSecrets_count_mismatch (M := Sample.modes)
                  Sample.world 0 Sample.aliceSession [1%N; 9%N] ["read"] Hne)).
Defined.

Lemma validateClientForSecret_not_found_witness :
  (7%N ∉ (_id <$> SecretCollection Sample.world))
  ∧ outcome (run Sample.world 0
               (validateClientForSecret (M := Sample.modes)
                  Sample.aliceSession 7%N [member; admin] ["read"]))
    = Thrown (SecretNotFoundError "Failed to find secret").
Proof.
  assert (Hid : 7%N ∉ (_id <$> SecretCollection Sample.world))
    by compute_done.
  split; [exact Hid|].
  exact (proj1 (validateClientForSecret_not_found (M := Sample.modes)
                  Sample.world 0 Sample.aliceSession 7%N
                  [member; admin] ["read"] Hid)).
Defined.

Lemma unrecognized_context_unauthorized_witness :
  kindAgrees (M := Sample.modes) Sample.mistagged = false
  ∧ outcome (run Sample.world 0
               (validateClientForSecret (M := Sample.modes)
                  Sample.mistagged 1%N [member; admin] ["read"]))
    = Thrown (UnauthorizedRequestError "Failed client authorization for secret")
  ∧ outcome (run Sample.world 0
               (validateClientForSecrets (M := Sample.modes)
                  Sample.mistagged [1%N; 2%N] ["read"]))
    = Thrown (UnauthorizedRequestError
                "Failed client authorization for secrets resource").
Proof.
  pose proof (unrecognized_context_unauthorized (M := Sample.modes)
                Sample.world 0 Sample.mistagged 1%N Sample.S1 [1%N; 2%N]
                [member; admin] ["read"] eq_refl eq_refl eq_refl)
    as [[H1 _] [Hn _]].
  split; [reflexivity|]. split; [exact H1|exact Hn].
Defined.


Lemma jwt_and_api_key_dispatch_alike_witness :
  findById Sample.world 1%N = Some Sample.S1
  ∧ length (findIn Sample.world [1%N; 2%N]) = length [1%N; 2%N]
  ∧ trace (run Sample.world 0
             (validateClientForSecret (M := Sample.modes)
                Sample.aliceSession 1%N [member] ["read"]))
    = [Called (Secret_findById 1%N);
       Called (validateUserClientForSecret
                 Sample.alice Sample.S1 [member] ["read"])]
  ∧ trace (run Sample.world 0
             (validateClientForSecret (M := Sample.modes)
                Sample.aliceApiKey 1%N [member] ["read"]))
    = [Called (Secret_findById 1%N);
       Called (validateUserClientForSecret
                 Sample.alice Sample.S1 [member] ["read"])]
  ∧ trace (run Sample.world 0
             (validateClientForSecrets (M := Sample.modes)
                Sample.aliceSession [1%N; 2%N] ["read"]))
    = [Called (Secret_find_id_in [1%N; 2%N]);
       Called (validateUserClientForSecrets
                 Sample.alice (findIn Sample.world [1%N; 2%N]) ["read"])]
  ∧ trace (run Sample.world 0
             (validateClientForSecrets (M := Sample.modes)
                Sample.aliceApiKey [1%N; 2%N] ["read"]))
    = [Called (Secret_find_id_in [1%N; 2%N]);
       Called (validateUserClientForSecrets
                 Sample.alice (findIn Sample.world [1%N; 2%N]) ["read"])].
Proof.
  pose proof (jwt_and_api_key_dispatch_alike (M := Sample.modes)
                Sample.world 0 Sample.alice 1%N [1%N; 2%N]
                [member] ["read"]) as (_ & H1 & Hn).
  destruct (H1 Sample.S1 eq_refl) as (T1 & T1' & _).
  destruct (Hn eq_refl) as (Tn & Tn' & _).
  split; [reflexivity|]. split; [reflexivity|].
  split; [exact T1|]. split; [exact T1'|]. split; [exact Tn|exact Tn'].
Defined.

Lemma serviceToken_dispatch_witness :
  trace (run Sample.world 0
           (validateClientForSecret (M := Sample.modes)
              Sample.tokenContext 1%N [member; admin] ["read"]))
  = [Called (Secret_findById 1%N);
     Called (validateServiceTokenDataClientForWorkspace
               Sample.token Sample.W1 "prod")]
  ∧ trace (run Sample.world 0
             (validateClientForSecrets (M := Sample.modes)
                Sample.tokenContext [1%N; 2%N] ["read"]))
    = [Called (Secret_find_id_in [1%N; 2%N]);
       Called (validateServiceTokenDataClientForSecrets
                 Sample.token [Sample.S1; Sample.S2] ["read"])].
Proof.
  pose proof (serviceToken_dispatch (M := Sample.modes)
                Sample.world 0 Sample.token 1%N Sample.S1 [1%N; 2%N]
                [member; admin] ["read"] eq_refl eq_refl)
    as (H1 & _ & Hn).
  split; [exact H1|exact Hn].
Defined.

(** C6 (as stated) fails on the batch path: there the service-token
    validator is handed the request's permission list. *)
Lemma serviceToken_batch_passes_permissions :
  ¬ passesNoPermissions
      (trace (run Sample.world 0
                (validateClientForSecrets (M := Sample.modes)
                   Sample.tokenContext [1%N; 2%N] ["read"]))).
Proof.
  unfold passesNoPermissions. intros Hall. vm_compute in Hall.
  apply Forall_cons_1 in Hall as [Hnone _]. discriminate Hnone.
Qed.

Lemma validateClientForSecrets_duplicate_ids_witness :
  (∀ id, id ∈ [1%N; 1%N] → id ∈ (_id <$> SecretCollection Sample.world))
  ∧ outcome (run Sample.world 0
               (validateClientForSecrets (M := Sample.modes)
                  Sample.aliceSession [1%N; 1%N] ["read"]))
    = Thrown (BadRequestError "Failed to validate non-existent secrets").
Proof.
  split.
  - intros id Hid. apply elem_of_cons in Hid as [->|Hid]; [compute_done|].
    apply elem_of_cons in Hid as [->|Hid]; [compute_done|].
    by apply elem_of_nil in Hid.
  - assert (Hdup : ¬ NoDup [1%N; 1%N]) by compute_done.
    exact (proj1 (validateClientForSecrets_duplicate_ids (M := Sample.modes)
                    Sample.world 0 Sample.aliceSession [1%N; 1%N] ["read"]
                    sample_uniqueIds Hdup)).
Defined.


(** ** The shape of every run *)

Section Runs.
Context {M : AuthModes}.

#[local] Ltac split_tags :=
  repeat match goal with
  | |- context [String.eqb ?a ?b] => destruct (String.eqb_spec a b)
  | H : context [String.eqb ?a ?b] |- _ => destruct (String.eqb_spec a b)
  end.

#[local] Ltac pick_call w :=
  match goal with
  | |- context [validators w ?c] =>
      exists c; destruct (validators w c) as [[]|?]
  end.

(** A run of [validateClientForSecret] is one of three: the lookup alone and
    the not-found error; the lookup alone and the unauthorized error; the
    lookup, one validator call for the context's own principal, and the
    validator's verdict. *)
Lemma run_validateClientForSecret_cases
    (w : World) (draws : nat) (authData : AuthData) (secretId : ObjectId)
    (acceptedRoles : list Role) (requiredPermissions : list string) :
  let p := validateClientForSecret
             authData secretId acceptedRoles requiredPermissions in
  (findById w secretId = None
   ∧ run w draws p
     = {| outcome := Thrown (SecretNotFoundError "Failed to find secret");
          trace := [Called (Secret_findById secretId)];
          drawn := draws |})
  ∨ (∃ secret,
       findById w secretId = Some secret
       ∧ kindAgrees authData = false
       ∧ run w draws p
         = {| outcome := Thrown (UnauthorizedRequestError
                                   "Failed client authorization for secret");
              trace := [Called (Secret_findById secretId)];
              drawn := draws |})
  ∨ (∃ secret (c : ExtCall unit),
       findById w secretId = Some secret
       ∧ kindAgrees authData = true
       ∧ isValidatorCall (Called c) = true
       ∧ principalOf (Called c) = Some (authPayload authData)
       ∧ run w draws p
         = {| outcome := match validators w c with
                         | Normal _ => Normal secret
                         | Thrown e => Thrown e
                         end;
              trace := [Called (Secret_findById secretId); Called c];
              drawn := draws |}).
Proof.
  cbn. destruct (findById w secretId) as [secret|] eqn:Hfound; cbn.
  2: { by left. }
  right. destruct (kindAgrees authData) eqn:Hkind.
  - right. exists secret.
    destruct authData as [mode [user|account|token|]];
      unfold kindAgrees in Hkind; cbn in *; split_tags; cbn in *;
      try discriminate; pick_call w; done.
  - left. exists secret.
    destruct authData as [mode [user|account|token|]];
      unfold kindAgrees in Hkind; cbn in *; split_tags; cbn in *;
      try discriminate; done.
Qed.

(** The same for [validateClientForSecrets], with the count check in the
    place of the lookup; the one validator call is always given the
    required permissions. *)
Lemma run_validateClientForSecrets_cases
    (w : World) (draws : nat) (authData : AuthData)
    (secretIds : list ObjectId) (requiredPermissions : list string) :
  let p := validateClientForSecrets authData secretIds requiredPermissions in
  (length (findIn w secretIds) ≠ length secretIds
   ∧ run w draws p
     = {| outcome := Thrown (BadRequestError
                               "Failed to validate non-existent secrets");
          trace := [Called (Secret_find_id_in secretIds)];
          drawn := draws |})
  ∨ (length (findIn w secretIds) = length secretIds
     ∧ kindAgrees authData = false
     ∧ run w draws p
       = {| outcome := Thrown (UnauthorizedRequestError
                         "Failed client authorization for secrets resource");
            trace := [Called (Secret_find_id_in secretIds)];
            drawn := draws |})
  ∨ (∃ c : ExtCall unit,
       length (findIn w secretIds) = length secretIds
       ∧ kindAgrees authData = true
       ∧ isValidatorCall (Called c) = true
       ∧ principalOf (Called c) = Some (authPayload authData)
       ∧ permissionsPassed (Called c) = Some requiredPermissions
       ∧ run w draws p
         = {| outcome := match validators w c with
                         | Normal _ => Normal (findIn w secretIds)
                         | Thrown e => Thrown e
                         end;
              trace := [Called (Secret_find_id_in secretIds); Called c];
              drawn := draws |}).
Proof.
  cbn.
  destruct (Nat.eqb_spec (length (findIn w secretIds)) (length secretIds))
    as [Hlen|Hlen]; cbn.
  2: { by left. }
  right. destruct (kindAgrees authData) eqn:Hkind.
  - right.
    destruct authData as [mode [user|account|token|]];
      unfold kindAgrees in Hkind; cbn in *; split_tags; cbn in *;
      try discriminate; pick_call w; done.
  - left.
    destruct authData as [mode [user|account|token|]];
      unfold kindAgrees in Hkind; cbn in *; split_tags; cbn in *;
      try discriminate; done.
Qed.

End Runs.

(** ** Runs against a world are runs against its handler *)

Lemma run_answering {A : Type} (w : World) (p : Prog A) (draws : nat) :
  run w draws p = runWith (answering w) draws p.
Proof.
  revert draws. induction p as [a|e|X c k IH]; intros draws; [done..|].
  cbn [run runWith]. unfold answering at 1.
  destruct (answer w draws c) as [[x|e] draws']; [|done].
  by rewrite IH.
Qed.

(** ** What the batch query resolves *)

Lemma findIn_ids_NoDup (w : World) (ids : list N) :
  uniqueIds w → NoDup (_id <$> findIn w ids).
Proof.
  intros Huniq. eapply sublist_NoDup; [exact Huniq|].
  apply fmap_sublist, sublist_filter.
Qed.

Lemma elem_of_findIn_ids (w : World) (ids : list N) (id : N) :
  id ∈ (_id <$> findIn w ids)
  ↔ id ∈ ids ∧ id ∈ (_id <$> SecretCollection w).
Proof.
  unfold findIn. rewrite !list_elem_of_fmap. split.
  - intros (s & -> & Hs). apply list_elem_of_filter in Hs as [Hin Hs].
    split; [done|]. by exists s.
  - intros [Hin (s & -> & Hs)]. exists s. split; [done|].
    by apply list_elem_of_filter.
Qed.

Lemma findIn_Permutation (w : World) (ids : list N) :
  uniqueIds w →
  length (findIn w ids) = length ids →
  _id <$> findIn w ids ≡ₚ ids.
Proof.
  intros Huniq Hlen. apply submseteq_length_Permutation.
  - apply NoDup_submseteq; [by apply findIn_ids_NoDup|].
    intros id Hid. by apply elem_of_findIn_ids in Hid as [? _].
  - rewrite length_fmap. lia.
Qed.

Lemma findIn_length_resolves (w : World) (ids : list N) :
  uniqueIds w →
  length (findIn w ids) = length ids ↔ requestResolves w ids.
Proof.
  intros Huniq. split.
  - intros Hlen. pose proof (findIn_Permutation w ids Huniq Hlen) as Hperm.
    split.
    + rewrite <- Hperm. by apply findIn_ids_NoDup.
    + intros id Hid. rewrite <- Hperm in Hid.
      by apply elem_of_findIn_ids in Hid as [_ ?].
  - intros [Hnodup Hall].
    apply Nat.le_antisymm.
    + rewrite <- (length_fmap _id). apply submseteq_length, NoDup_submseteq.
      * by apply findIn_ids_NoDup.
      * intros id Hid. by apply elem_of_findIn_ids in Hid as [? _].
    + rewrite <- (length_fmap _id (findIn w ids)).
      apply submseteq_length, NoDup_submseteq; [done|].
      intros id Hid. apply elem_of_findIn_ids. split; [done|by apply Hall].
Qed.

Lemma findIn_nil (w : World) : findIn w [] = [].
Proof.
  unfold findIn. induction (SecretCollection w) as [|s l IH]; [done|].
  rewrite filter_cons. case_decide as Hin; [|done].
  by apply elem_of_nil in Hin.
Qed.

Lemma validatorCalls_after_query {X : Type} (q : ExtCall X) (c : ExtCall unit) :
  isValidatorCall (Called q) = false →
  isValidatorCall (Called c) = true →
  validatorCalls [Called q; Called c] = [Called c].
Proof.
  intros Hq Hc. unfold validatorCalls. cbn [List.filter].
  by rewrite Hq, Hc.
Qed.

(** ** More on the two dispatchers *)

Section Coverage.
Context {M : AuthModes}.

#[local] Ltac tags :=
  repeat match goal with
  | |- context [String.eqb ?a ?b] => destruct (String.eqb_spec a b)
  | H : context [String.eqb ?a ?b] |- _ => destruct (String.eqb_spec a b)
  end.

#[local] Ltac verdicts w :=
  repeat match goal with
  | |- context [validators w ?c] => destruct (validators w c) as [[]|?]
  end.

(** X1: for a recognized context and a batch that resolves in full, exactly
    one validator call follows the query and it carries the required
    permissions, whatever the principal kind; the result is the list the
    query returned if the validator returns, and the validator's own error
    if it throws. *)
Theorem validateClientForSecrets_returns_batch_or_propagates
    (w : World) (draws : nat) (authData : AuthData)
    (secretIds : list ObjectId) (requiredPermissions : list string) :
  kindAgrees authData = true →
  length (findIn w secretIds) = length secretIds →
  let r := run w draws (validateClientForSecrets
                          authData secretIds requiredPermissions) in
  ∃ c : ExtCall unit,
    isValidatorCall (Called c) = true
    ∧ permissionsPassed (Called c) = Some requiredPermissions
    ∧ trace r = [Called (Secret_find_id_in secretIds); Called c]
    ∧ outcome r = match validators w c with
                  | Normal _ => Normal (findIn w secretIds)
                  | Thrown e => Thrown e
                  end.
Proof.
  intros Hkind Hlen r. subst r.
  destruct (run_validateClientForSecrets_cases
              w draws authData secretIds requiredPermissions)
    as [[Hne _]|[(_ & Hno & _)|(c & _ & _ & Hv & _ & Hp & ->)]];
    [done|congruence|].
  by exists c.
Qed.


(** X3: with identifiers unique in the collection, the batch call stops at
    the query with the bad-request error exactly when the request repeats an
    identifier or names one that no document carries. *)
Theorem validateClientForSecrets_bad_request_iff
    (w : World) (draws : nat) (authData : AuthData)
    (secretIds : list ObjectId) (requiredPermissions : list string) :
  uniqueIds w →
  run w draws (validateClientForSecrets authData secretIds requiredPermissions)
  = {| outcome := Thrown (BadRequestError
                            "Failed to validate non-existent secrets");
       trace := [Called (Secret_find_id_in secretIds)];
       drawn := draws |}
  ↔ ¬ requestResolves w secretIds.
Proof.
  intros Huniq. rewrite <- (findIn_length_resolves w secretIds Huniq).
  destruct (run_validateClientForSecrets_cases
              w draws authData secretIds requiredPermissions)
    as [[Hne ->]|[(Hlen & _ & ->)|(c & Hlen & _ & _ & _ & _ & ->)]].
  - done.
  - split; [discriminate|done].
  - split; [discriminate|done].
Qed.

(** X4: [validateClientForSecret] returns a secret only if it is the
    document found for the requested identifier and a validator, called for
    the context's own principal, has returned normally. *)
Theorem validateClientForSecret_fail_closed
    (w : World) (draws : nat) (authData : AuthData) (secretId : ObjectId)
    (acceptedRoles : list Role) (requiredPermissions : list string)
    (secret : ISecret) :
  let r := run w draws (validateClientForSecret
                          authData secretId acceptedRoles requiredPermissions) in
  outcome r = Normal secret →
  findById w secretId = Some secret
  ∧ _id secret = secretId
  ∧ ∃ c : ExtCall unit,
      isValidatorCall (Called c) = true
      ∧ principalOf (Called c) = Some (authPayload authData)
      ∧ validators w c = Normal tt
      ∧ trace r = [Called (Secret_findById secretId); Called c].
Proof.
  intros r. subst r.
  destruct (run_validateClientForSecret_cases
              w draws authData secretId acceptedRoles requiredPermissions)
    as [[_ ->]|[(s & _ & _ & ->)|(s & c & Hfound & _ & Hv & Hp & ->)]];
    cbn; [done..|].
  destruct (validators w c) as [[]|?] eqn:Hverdict; [|done].
  intros [= <-]. split; [done|].
  split; [by apply findById_Some in Hfound as [_ ?]|].
  by exists c.
Qed.

(** X5: [validateClientForSecrets] returns a list only if it is the list the
    query resolved, of the length of the request, and a validator, called
    for the context's own principal with the required permissions, has
    returned normally. *)
Theorem validateClientForSecrets_fail_closed
    (w : World) (draws : nat) (authData : AuthData)
    (secretIds : list ObjectId) (requiredPermissions : list string)
    (secrets : list ISecret) :
  let r := run w draws (validateClientForSecrets
                          authData secretIds requiredPermissions) in
  outcome r = Normal secrets →
  secrets = findIn w secretIds
  ∧ length secrets = length secretIds
  ∧ ∃ c : ExtCall unit,
      isValidatorCall (Called c) = true
      ∧ principalOf (Called c) = Some (authPayload authData)
      ∧ permissionsPassed (Called c) = Some requiredPermissions
      ∧ validators w c = Normal tt
      ∧ trace r = [Called (Secret_find_id_in secretIds); Called c].
Proof.
  intros r. subst r.
  destruct (run_validateClientForSecrets_cases
              w draws authData secretIds requiredPermissions)
    as [[_ ->]|[(_ & _ & ->)|(c & Hlen & _ & Hv & Hp & Hperm & ->)]];
    cbn; [done..|].
  destruct (validators w c) as [[]|?] eqn:Hverdict; [|done].
  intros [= <-]. split; [done|]. split; [done|]. by exists c.
Qed.

(** X6: an error of [validateClientForSecret], whatever the collaborators
    answer, is its own not-found error (the lookup resolved to nothing), its
    own unauthorized error (tag and payload do not agree), or the very error
    with which a call it awaited has rejected: the lookup itself, or the
    validator it called. *)
Theorem validateClientForSecret_failure_origin
    (h : Handler) (draws : nat) (authData : AuthData) (secretId : ObjectId)
    (acceptedRoles : list Role) (requiredPermissions : list string)
    (e : RequestError) :
  let r := runWith h draws
             (validateClientForSecret
                authData secretId acceptedRoles requiredPermissions) in
  outcome r = Thrown e →
  (e = SecretNotFoundError "Failed to find secret"
   ∧ (h draws _ (Secret_findById secretId)).1 = Normal None)
  ∨ (e = UnauthorizedRequestError "Failed client authorization for secret"
     ∧ kindAgrees authData = false)
  ∨ ((h draws _ (Secret_findById secretId)).1 = Thrown e
     ∧ trace r = [Called (Secret_findById secretId)])
  ∨ ∃ (c : ExtCall unit) (d : nat),
      isValidatorCall (Called c) = true
      ∧ Called c ∈ trace r
      ∧ (h d _ c).1 = Thrown e.
Proof.
  intros r. subst r. cbn.
  destruct (h draws _ (Secret_findById secretId)) as [[[secret|]|e0] d0];
    cbn.
  - destruct authData as [mode [user|account|token|]];
      unfold kindAgrees; cbn; tags; cbn;
      repeat match goal with
      | |- context [h ?d unit ?c] =>
          destruct (h d unit c) as [[[]|?] ?] eqn:?
      end; cbn; intros [= <-];
      first [ by (right; left)
            | do 3 right;
              match goal with
              | Hc : h ?d unit ?c = _ |- _ =>
                  exists c, d; split; [reflexivity|];
                  split; [right; left|by rewrite Hc]
              end ].
  - intros [= <-]. by left.
  - intros [= <-]. right. right. by left.
Qed.

(** X7: an error of [validateClientForSecrets], whatever the collaborators
    answer, is its own bad-request error (the query resolved a list of
    another length than the request), its own unauthorized error, or the
    very error with which a call it awaited has rejected: the query itself,
    or the validator it called. *)
Theorem validateClientForSecrets_failure_origin
    (h : Handler) (draws : nat) (authData : AuthData)
    (secretIds : list ObjectId) (requiredPermissions : list string)
    (e : RequestError) :
  let r := runWith h draws
             (validateClientForSecrets
                authData secretIds requiredPermissions) in
  outcome r = Thrown e →
  (e = BadRequestError "Failed to validate non-existent secrets"
   ∧ ∃ secrets,
       (h draws _ (Secret_find_id_in secretIds)).1 = Normal secrets
       ∧ length secrets ≠ length secretIds)
  ∨ (e = UnauthorizedRequestError
           "Failed client authorization for secrets resource"
     ∧ kindAgrees authData = false)
  ∨ ((h draws _ (Secret_find_id_in secretIds)).1 = Thrown e
     ∧ trace r = [Called (Secret_find_id_in secretIds)])
  ∨ ∃ (c : ExtCall unit) (d : nat),
      isValidatorCall (Called c) = true
      ∧ Called c ∈ trace r
      ∧ (h d _ c).1 = Thrown e.
Proof.
  intros r. subst r. cbn.
  destruct (h draws _ (Secret_find_id_in secretIds)) as [[secrets|e0] d0];
    cbn.
  - destruct (Nat.eqb_spec (length secrets) (length secretIds)) as [Hlen|Hlen];
      cbn.
    + destruct authData as [mode [user|account|token|]];
        unfold kindAgrees; cbn; tags; cbn;
        repeat match goal with
        | |- context [h ?d unit ?c] =>
            destruct (h d unit c) as [[[]|?] ?] eqn:?
        end; cbn; intros [= <-];
      first [ by (right; left)
            | do 3 right;
              match goal with
              | Hc : h ?d unit ?c = _ |- _ =>
                  exists c, d; split; [reflexivity|];
                  split; [right; left|by rewrite Hc]
              end ].
    + intros [= <-]. left. split; [done|]. by exists secrets.
  - intros [= <-]. right. right. by left.
Qed.

End Coverage.

(** ** Which validator, with which arguments *)

Section Principals.
Context {M : AuthModes}.

#[local] Ltac tags :=
  repeat match goal with
  | |- context [String.eqb ?a ?b] => destruct (String.eqb_spec a b)
  | H : context [String.eqb ?a ?b] |- _ => destruct (String.eqb_spec a b)
  end.

#[local] Ltac verdicts w :=
  repeat match goal with
  | |- context [validators w ?c] => destruct (validators w c) as [[]|?]
  end.

(** X8: whatever the tag and the payload, a run of either dispatcher makes at
    most one validator call, and that call is for the principal the context
    carries: a payload of one class is never handed to the validator of
    another. *)
Theorem validators_called_for_own_principal
    (w : World) (draws : nat) (authData : AuthData)
    (secretId : ObjectId) (secretIds : list ObjectId)
    (acceptedRoles : list Role) (requiredPermissions : list string) :
  let t1 := validatorCalls (trace (run w draws
              (validateClientForSecret
                 authData secretId acceptedRoles requiredPermissions))) in
  let tn := validatorCalls (trace (run w draws
              (validateClientForSecrets
                 authData secretIds requiredPermissions))) in
  ((length t1 ≤ 1)%nat
   ∧ Forall (λ e, principalOf e = Some (authPayload authData)) t1)
  ∧ ((length tn ≤ 1)%nat
     ∧ Forall (λ e, principalOf e = Some (authPayload authData)) tn).
Proof.
  intros t1 tn. subst t1 tn. split.
  - destruct (run_validateClientForSecret_cases
                w draws authData secretId acceptedRoles requiredPermissions)
      as [[_ ->]|[(s & _ & _ & ->)|(s & c & _ & _ & Hv & Hp & ->)]];
      cbn [trace].
    + split; [cbn; lia|constructor].
    + split; [cbn; lia|constructor].
    + rewrite validatorCalls_after_query by done.
      split; [cbn; lia|]. by repeat constructor.
  - destruct (run_validateClientForSecrets_cases
                w draws authData secretIds requiredPermissions)
      as [[_ ->]|[(_ & _ & ->)|(c & _ & _ & Hv & Hp & _ & ->)]];
      cbn [trace].
    + split; [cbn; lia|constructor].
    + split; [cbn; lia|constructor].
    + rewrite validatorCalls_after_query by done.
      split; [cbn; lia|]. by repeat constructor.
Qed.

(** X9: [acceptedRoles] matters to user principals only: when the payload is
    not a user document, the run of [validateClientForSecret] is the same
    for any two role lists. *)
Theorem acceptedRoles_ignored_unless_user
    (w : World) (draws : nat) (authData : AuthData) (secretId : ObjectId)
    (roles roles' : list Role) (requiredPermissions : list string) :
  instanceofUser (authPayload authData) = None →
  run w draws (validateClientForSecret
                 authData secretId roles requiredPermissions)
  = run w draws (validateClientForSecret
                   authData secretId roles' requiredPermissions).
Proof.
  intros Hpayload.
  destruct authData as [mode [user|account|token|]];
    cbn in *; try discriminate;
    destruct (findById w secretId); cbn; try reflexivity;
    tags; reflexivity.
Qed.

(** X10: for a service-account context, the single-secret path calls the
    service-account validator with the account, the secret's workspace and
    environment and the required permissions; the batch path calls the batch
    validator with the account, the resolved batch and the required
    permissions.  No accepted role reaches either. *)
Theorem serviceAccount_dispatch
    (w : World) (draws : nat) (account : IServiceAccount)
    (secretId : ObjectId) (secret : ISecret) (secretIds : list ObjectId)
    (acceptedRoles : list Role) (requiredPermissions : list string) :
  findById w secretId = Some secret →
  length (findIn w secretIds) = length secretIds →
  trace (run w draws (validateClientForSecret (serviceAccountContext account)
                        secretId acceptedRoles requiredPermissions))
  = [Called (Secret_findById secretId);
     Called (validateServiceAccountClientForWorkspace
               account (workspace secret) (environment secret)
               requiredPermissions)]
  ∧ trace (run w draws (validateClientForSecrets
                          (serviceAccountContext account)
                          secretIds requiredPermissions))
    = [Called (Secret_find_id_in secretIds);
       Called (validateServiceAccountClientForSecrets
                 account (findIn w secretIds) requiredPermissions)].
Proof.
  intros Hfound Hlen. cbn.
  rewrite Hfound, Hlen, Nat.eqb_refl. cbn.
  rewrite !String.eqb_refl. tags; cbn; verdicts w; cbn; by split.
Qed.

(** X11: for a user document under the session tag or under the API-key tag,
    the single-secret path calls the user validator with the user, the
    fetched secret itself, the accepted roles and the required permissions;
    the batch path calls the batch user validator with the user, the
    resolved batch and the required permissions, and no roles. *)
Theorem user_dispatch
    (w : World) (draws : nat) (mode : string) (user : IUser)
    (secretId : ObjectId) (secret : ISecret) (secretIds : list ObjectId)
    (acceptedRoles : list Role) (requiredPermissions : list string) :
  let authData := {| authMode := mode; authPayload := UserDocument user |} in
  kindAgrees authData = true →
  findById w secretId = Some secret →
  length (findIn w secretIds) = length secretIds →
  trace (run w draws (validateClientForSecret
                        authData secretId acceptedRoles requiredPermissions))
  = [Called (Secret_findById secretId);
     Called (validateUserClientForSecret
               user secret acceptedRoles requiredPermissions)]
  ∧ trace (run w draws (validateClientForSecrets
                          authData secretIds requiredPermissions))
    = [Called (Secret_find_id_in secretIds);
       Called (validateUserClientForSecrets
                 user (findIn w secretIds) requiredPermissions)].
Proof.
  intros authData Hkind Hfound Hlen. subst authData.
  unfold kindAgrees in Hkind. cbn in *.
  rewrite Hfound, Hlen, Nat.eqb_refl. cbn.
  tags; cbn in *; try discriminate; verdicts w; cbn; by split.
Qed.

(** X12: an empty request passes the count check in every world: the run is
    never the bad-request rejection, and a call that returns returns the
    empty list. *)
Theorem validateClientForSecrets_empty_request
    (w : World) (draws : nat) (authData : AuthData)
    (requiredPermissions : list string) :
  let r := run w draws (validateClientForSecrets
                          authData [] requiredPermissions) in
  r ≠ {| outcome := Thrown (BadRequestError
                              "Failed to validate non-existent secrets");
         trace := [Called (Secret_find_id_in [])];
         drawn := draws |}
  ∧ ∀ secrets, outcome r = Normal secrets → secrets = [].
Proof.
  intros r. subst r.
  destruct (run_validateClientForSecrets_cases
              w draws authData [] requiredPermissions)
    as [[Hne _]|[(_ & _ & ->)|(c & _ & _ & _ & _ & _ & ->)]].
  - by rewrite findIn_nil in Hne.
  - split; [discriminate|]. cbn. discriminate.
  - split; [discriminate|]. cbn. intros secrets.
    destruct (validators w c) as [[]|?]; [|discriminate].
    rewrite findIn_nil. by intros [= <-].
Qed.

End Principals.

(** ** The base64 text *)

Section Base64.
Local Open Scope N_scope.

Lemma base64Char_index (i : N) :
  i < 64 → base64Index (base64Char i) = Some i.
Proof.
  intros Hi. destruct i as [|p]; [reflexivity|].
  do 6 (destruct p as [p|p|]; try reflexivity); lia.
Qed.

Lemma sextet_value_lt (n s : N) : N.land (N.shiftr n s) 63 < 64.
Proof.
  change 63 with (N.ones 6). rewrite N.land_ones.
  by apply N.mod_lt.
Qed.

Lemma sextet_index (n s : N) :
  base64Index (sextet n s) = Some (N.land (N.shiftr n s) 63).
Proof. apply base64Char_index, sextet_value_lt. Qed.

Lemma sextet_not_padding (n s : N) : sextet n s ≠ "="%char.
Proof.
  intros Heq. pose proof (sextet_index n s) as Hi.
  rewrite Heq in Hi. discriminate Hi.
Qed.

Lemma sextet_agree (n m s i : N) :
  sextet n s = sextet m s →
  s ≤ i < s + 6 →
  N.testbit n i = N.testbit m i.
Proof.
  intros Heq Hi.
  assert (Hval : N.land (N.shiftr n s) 63 = N.land (N.shiftr m s) 63).
  { apply (f_equal base64Index) in Heq.
    rewrite !sextet_index in Heq. by injection Heq. }
  apply (f_equal (λ v, N.testbit v (i - s))) in Hval. cbn beta in Hval.
  change 63 with (N.ones 6) in Hval.
  rewrite !N.land_ones, !N.mod_pow2_bits_low, !N.shiftr_spec' in Hval by lia.
  by replace (i - s + s) with i in Hval by lia.
Qed.

Lemma small_bits_high (x j : N) : x < 256 → 8 ≤ j → N.testbit x j = false.
Proof.
  intros Hx Hj. rewrite <- (N.mod_small x (2 ^ 8)) by exact Hx.
  by apply N.mod_pow2_bits_high.
Qed.

Lemma byte_lt (a : byte) : Byte.to_N a < 256.
Proof. pose proof (Byte.to_N_bounded a). lia. Qed.

(** The three bytes of a 24-bit group, read back from its bits. *)
Lemma group_bits_first (a b c j : N) :
  b < 256 → c < 256 → j < 8 →
  N.testbit (N.lor (N.lor (N.shiftl a 16) (N.shiftl b 8)) c) (j + 16)
  = N.testbit a j.
Proof.
  intros Hb Hc Hj. rewrite !N.lor_spec.
  rewrite (N.shiftl_spec_high' a), (N.shiftl_spec_high' b) by lia.
  rewrite (small_bits_high b), (small_bits_high c) by lia.
  rewrite !orb_false_r. f_equal. lia.
Qed.

Lemma group_bits_second (a b c j : N) :
  c < 256 → j < 8 →
  N.testbit (N.lor (N.lor (N.shiftl a 16) (N.shiftl b 8)) c) (j + 8)
  = N.testbit b j.
Proof.
  intros Hc Hj. rewrite !N.lor_spec.
  rewrite (N.shiftl_spec_low a), (N.shiftl_spec_high' b) by lia.
  rewrite (small_bits_high c) by lia.
  rewrite orb_false_r, orb_false_l. f_equal. lia.
Qed.

Lemma group_bits_third (a b c j : N) :
  j < 8 →
  N.testbit (N.lor (N.lor (N.shiftl a 16) (N.shiftl b 8)) c) j
  = N.testbit c j.
Proof.
  intros Hj. rewrite !N.lor_spec.
  by rewrite (N.shiftl_spec_low a), (N.shiftl_spec_low b) by lia.
Qed.

Lemma byte_eq_of_bits (a a' : byte) :
  (∀ j, j < 8 → N.testbit (Byte.to_N a) j = N.testbit (Byte.to_N a') j) →
  a = a'.
Proof.
  intros Hbits.
  assert (Heq : Byte.to_N a = Byte.to_N a').
  { apply N.bits_inj. intros j. destruct (N.lt_ge_cases j 8) as [Hj|Hj].
    - by apply Hbits.
    - by rewrite !small_bits_high by (apply byte_lt || exact Hj). }
  pose proof (Byte.of_to_N a) as Ha. rewrite Heq, Byte.of_to_N in Ha.
  by injection Ha.
Qed.

(** Four sextets fix the three bytes of a full group; three fix the two
    bytes of a group padded once; two fix the byte of a group padded
    twice. *)
Lemma full_group_inj (a b c a' b' c' : byte) :
  let n := N.lor (N.lor (N.shiftl (Byte.to_N a) 16)
                        (N.shiftl (Byte.to_N b) 8)) (Byte.to_N c) in
  let m := N.lor (N.lor (N.shiftl (Byte.to_N a') 16)
                        (N.shiftl (Byte.to_N b') 8)) (Byte.to_N c') in
  sextet n 18 = sextet m 18 → sextet n 12 = sextet m 12 →
  sextet n 6 = sextet m 6 → sextet n 0 = sextet m 0 →
  a = a' ∧ b = b' ∧ c = c'.
Proof.
  intros n m H18 H12 H6 H0.
  assert (Hbits : ∀ i, i < 24 → N.testbit n i = N.testbit m i).
  { intros i Hi.
    destruct (N.lt_ge_cases i 6); [by apply (sextet_agree n m 0); [|lia]|].
    destruct (N.lt_ge_cases i 12); [by apply (sextet_agree n m 6); [|lia]|].
    destruct (N.lt_ge_cases i 18); [by apply (sextet_agree n m 12); [|lia]|].
    by apply (sextet_agree n m 18); [|lia]. }
  pose proof (byte_lt b). pose proof (byte_lt c).
  pose proof (byte_lt b'). pose proof (byte_lt c').
  repeat split; apply byte_eq_of_bits; intros j Hj.
  - rewrite <- (group_bits_first (Byte.to_N a) (Byte.to_N b) (Byte.to_N c) j) by done.
    rewrite <- (group_bits_first (Byte.to_N a') (Byte.to_N b') (Byte.to_N c') j) by done.
    apply Hbits. lia.
  - rewrite <- (group_bits_second (Byte.to_N a) (Byte.to_N b) (Byte.to_N c) j) by done.
    rewrite <- (group_bits_second (Byte.to_N a') (Byte.to_N b') (Byte.to_N c') j) by done.
    apply Hbits. lia.
  - rewrite <- (group_bits_third (Byte.to_N a) (Byte.to_N b) (Byte.to_N c) j) by done.
    rewrite <- (group_bits_third (Byte.to_N a') (Byte.to_N b') (Byte.to_N c') j) by done.
    apply Hbits. lia.
Qed.

Lemma padded_group_inj (a b a' b' : byte) :
  let n := N.lor (N.shiftl (Byte.to_N a) 16) (N.shiftl (Byte.to_N b) 8) in
  let m := N.lor (N.shiftl (Byte.to_N a') 16) (N.shiftl (Byte.to_N b') 8) in
  sextet n 18 = sextet m 18 → sextet n 12 = sextet m 12 →
  sextet n 6 = sextet m 6 →
  a = a' ∧ b = b'.
Proof.
  intros n m H18 H12 H6.
  assert (Hbits : ∀ i, 6 ≤ i < 24 → N.testbit n i = N.testbit m i).
  { intros i Hi.
    destruct (N.lt_ge_cases i 12); [by apply (sextet_agree n m 6); [|lia]|].
    destruct (N.lt_ge_cases i 18); [by apply (sextet_agree n m 12); [|lia]|].
    by apply (sextet_agree n m 18); [|lia]. }
  subst n m. rewrite <- (N.lor_0_r (N.lor _ (N.shiftl (Byte.to_N b) _))) in Hbits.
  rewrite <- (N.lor_0_r (N.lor _ (N.shiftl (Byte.to_N b') _))) in Hbits.
  pose proof (byte_lt b). pose proof (byte_lt b').
  split; apply byte_eq_of_bits; intros j Hj.
  - rewrite <- (group_bits_first (Byte.to_N a) (Byte.to_N b) 0 j) by done.
    rewrite <- (group_bits_first (Byte.to_N a') (Byte.to_N b') 0 j) by done.
    apply Hbits. lia.
  - rewrite <- (group_bits_second (Byte.to_N a) (Byte.to_N b) 0 j) by done.
    rewrite <- (group_bits_second (Byte.to_N a') (Byte.to_N b') 0 j) by done.
    apply Hbits. lia.
Qed.

Lemma twice_padded_group_inj (a a' : byte) :
  let n := N.shiftl (Byte.to_N a) 16 in
  let m := N.shiftl (Byte.to_N a') 16 in
  sextet n 18 = sextet m 18 → sextet n 12 = sextet m 12 →
  a = a'.
Proof.
  intros n m H18 H12.
  assert (Hbits : ∀ i, 12 ≤ i < 24 → N.testbit n i = N.testbit m i).
  { intros i Hi.
    destruct (N.lt_ge_cases i 18); [by apply (sextet_agree n m 12); [|lia]|].
    by apply (sextet_agree n m 18); [|lia]. }
  apply byte_eq_of_bits; intros j Hj.
  specialize (Hbits (j + 16) ltac:(lia)). subst n m.
  by rewrite !N.shiftl_spec_high', !N.add_sub in Hbits by lia.
Qed.

Local Close Scope N_scope.

Lemma toBase64_inj_steps (bs : list byte) :
  (∀ bs', toBase64 bs = toBase64 bs' → bs = bs')
  ∧ (∀ a bs', toBase64 (a :: bs) = toBase64 bs' → a :: bs = bs')
  ∧ (∀ a b bs', toBase64 (a :: b :: bs) = toBase64 bs' → a :: b :: bs = bs').
Proof.
  induction bs as [|c bs (IH0 & IH1 & IH2)].
  - repeat split.
    + intros [|a' [|b' [|c' bs']]]; cbn; intros Heq; by try discriminate.
    + intros a [|a' [|b' [|c' bs']]]; cbn; intros Heq; try discriminate.
      * injection Heq as H18 H12. f_equal.
        by apply twice_padded_group_inj.
      * injection Heq as _ _ H6. by destruct (sextet_not_padding _ _ (eq_sym H6)).
      * injection Heq as _ _ H6. by destruct (sextet_not_padding _ _ (eq_sym H6)).
    + intros a b [|a' [|b' [|c' bs']]]; cbn; intros Heq; try discriminate.
      * injection Heq as _ _ H6. by destruct (sextet_not_padding _ _ H6).
      * injection Heq as H18 H12 H6.
        by destruct (padded_group_inj a b a' b' H18 H12 H6) as [-> ->].
      * injection Heq as _ _ _ H0. by destruct (sextet_not_padding _ _ (eq_sym H0)).
  - split; [exact (IH1 c)|]. split; [exact (λ a, IH2 a c)|].
    intros a b [|a' [|b' [|c' bs']]]; cbn; intros Heq; try discriminate.
    + injection Heq as _ _ H6. by destruct (sextet_not_padding _ _ H6).
    + injection Heq as _ _ _ H0. by destruct (sextet_not_padding _ _ H0).
    + injection Heq as H18 H12 H6 H0 Hrest.
      destruct (full_group_inj a b c a' b' c' H18 H12 H6 H0) as (-> & -> & ->).
      by rewrite (IH0 bs' Hrest).
Qed.

Lemma toBase64_inj (bs bs' : list byte) :
  toBase64 bs = toBase64 bs' → bs = bs'.
Proof. apply toBase64_inj_steps. Qed.

End Base64.

(** ** The blind index as a text *)

(** X13: the text [toString('base64')] gives for [n] bytes has four
    characters for every started group of three bytes. *)
Theorem toBase64_length_formula (bs : list byte) :
  String.length (toBase64 bs) = 4 * ((length bs + 2) `div` 3).
Proof. by rewrite toBase64_length, base64Length_div. Qed.

(** X14: two calls of [createSecretBlindIndexHelper], in any worlds, at any
    draws, for any names and workspaces, resolve to the same value exactly
    when Argon2 gave them the same raw digest: the encoding loses nothing,
    and the workspace plays no part. *)
Theorem blind_index_equal_iff_digest_equal
    (w w' : World) (draws draws' : nat) (secretName secretName' : string)
    (workspaceId workspaceId' : ObjectId) :
  outcome (run w draws (createSecretBlindIndexHelper secretName workspaceId))
  = outcome (run w' draws'
               (createSecretBlindIndexHelper secretName' workspaceId'))
  ↔ argon2 w secretName (blindIndexOptions (entropy w draws 16))
    = argon2 w' secretName' (blindIndexOptions (entropy w' draws' 16)).
Proof.
  rewrite !run_createSecretBlindIndexHelper. cbn [outcome]. split.
  - intros [= Heq]. by apply toBase64_inj.
  - by intros ->.
Qed.

(** ** The further theorems at work on the sample deployment *)

Lemma validateClientForSecrets_returns_batch_or_propagates_witness :
  ∃ c : ExtCall unit,
    isValidatorCall (Called c) = true
    ∧ permissionsPassed (Called c) = Some ["read"]
    ∧ trace (run Sample.world 0
               (validateClientForSecrets (M := Sample.modes)
                  Sample.robotContext [1%N; 2%N] ["read"]))
      = [Called (Secret_find_id_in [1%N; 2%N]); Called c]
    ∧ outcome (run Sample.world 0
                 (validateClientForSecrets (M := Sample.modes)
                    Sample.robotContext [1%N; 2%N] ["read"]))
      = match validators Sample.world c with
        | Normal _ => Normal (findIn Sample.world [1%N; 2%N])
        | Thrown e => Thrown e
        end.
Proof.
  exact (validateClientForSecrets_returns_batch_or_propagates
           (M := Sample.modes) Sample.world 0 Sample.robotContext
           [1%N; 2%N] ["read"] eq_refl eq_refl).
Defined.


Lemma validateClientForSecrets_bad_request_iff_witness :
  run Sample.world 0
    (validateClientForSecrets (M := Sample.modes)
       Sample.aliceSession [1%N; 9%N] ["read"])
  = {| outcome := Thrown (BadRequestError
                            "Failed to validate non-existent secrets");
       trace := [Called (Secret_find_id_in [1%N; 9%N])];
       drawn := 0 |}
  ↔ ¬ requestResolves Sample.world [1%N; 9%N].
Proof.
  exact (validateClientForSecrets_bad_request_iff
           (M := Sample.modes) Sample.world 0 Sample.aliceSession
           [1%N; 9%N] ["read"] sample_uniqueIds).
Defined.

Lemma validateClientForSecret_fail_closed_witness :
  findById Sample.world 1%N = Some Sample.S1
  ∧ _id Sample.S1 = 1%N
  ∧ ∃ c : ExtCall unit,
      isValidatorCall (Called c) = true
      ∧ principalOf (Called c) = Some (authPayload Sample.tokenContext)
      ∧ validators Sample.world c = Normal tt
      ∧ trace (run Sample.world 0
                 (validateClientForSecret (M := Sample.modes)
                    Sample.tokenContext 1%N [member] ["read"]))
        = [Called (Secret_findById 1%N); Called c].
Proof.
  exact (validateClientForSecret_fail_closed
           (M := Sample.modes) Sample.world 0 Sample.tokenContext 1%N
           [member] ["read"] Sample.S1 eq_refl).
Defined.

Lemma validateClientForSecrets_fail_closed_witness :
  [Sample.S1; Sample.S3] = findIn Sample.world [3%N; 1%N]
  ∧ length [Sample.S1; Sample.S3] = length [3%N; 1%N]
  ∧ ∃ c : ExtCall unit,
      isValidatorCall (Called c) = true
      ∧ principalOf (Called c) = Some (authPayload Sample.aliceApiKey)
      ∧ permissionsPassed (Called c) = Some ["read"]
      ∧ validators Sample.world c = Normal tt
      ∧ trace (run Sample.world 0
                 (validateClientForSecrets (M := Sample.modes)
                    Sample.aliceApiKey [3%N; 1%N] ["read"]))
        = [Called (Secret_find_id_in [3%N; 1%N]); Called c].
Proof.
  exact (validateClientForSecrets_fail_closed
           (M := Sample.modes) Sample.world 0 Sample.aliceApiKey
           [3%N; 1%N] ["read"] [Sample.S1; Sample.S3] eq_refl).
Defined.

(** With the database out of reach, the error is the lookup's. *)
Lemma validateClientForSecret_failure_origin_witness :
  outcome (runWith Sample.outage 0
             (validateClientForSecret (M := Sample.modes)
                Sample.aliceSession 1%N [member] ["read"]))
  = Thrown Sample.unreachable
  ∧ ((Sample.unreachable = SecretNotFoundError "Failed to find secret"
      ∧ (Sample.outage 0 _ (Secret_findById 1%N)).1 = Normal None)
     ∨ (Sample.unreachable
        = UnauthorizedRequestError "Failed client authorization for secret"
        ∧ kindAgrees (M := Sample.modes) Sample.aliceSession = false)
     ∨ ((Sample.outage 0 _ (Secret_findById 1%N)).1
        = Thrown Sample.unreachable
        ∧ trace (runWith Sample.outage 0
                   (validateClientForSecret (M := Sample.modes)
                      Sample.aliceSession 1%N [member] ["read"]))
          = [Called (Secret_findById 1%N)])
     ∨ ∃ (c : ExtCall unit) (d : nat),
         isValidatorCall (Called c) = true
         ∧ Called c ∈ trace (runWith Sample.outage 0
                               (validateClientForSecret (M := Sample.modes)
                                  Sample.aliceSession 1%N [member] ["read"]))
         ∧ (Sample.outage d _ c).1 = Thrown Sample.unreachable).
Proof.
  split; [reflexivity|].
  exact (validateClientForSecret_failure_origin
           (M := Sample.modes) Sample.outage 0 Sample.aliceSession 1%N
           [member] ["read"] Sample.unreachable eq_refl).
Defined.

(** The token may not write: the error is the batch validator's. *)
Lemma validateClientForSecrets_failure_origin_witness :
  outcome (runWith (answering Sample.world) 0
             (validateClientForSecrets (M := Sample.modes)
                Sample.tokenContext [1%N; 2%N] ["write"]))
  = Thrown Sample.denied
  ∧ ((Sample.denied = BadRequestError "Failed to validate non-existent secrets"
      ∧ ∃ secrets,
          (answering Sample.world 0 _ (Secret_find_id_in [1%N; 2%N])).1
          = Normal secrets
          ∧ length secrets ≠ length [1%N; 2%N])
     ∨ (Sample.denied
        = UnauthorizedRequestError
            "Failed client authorization for secrets resource"
        ∧ kindAgrees (M := Sample.modes) Sample.tokenContext = false)
     ∨ ((answering Sample.world 0 _ (Secret_find_id_in [1%N; 2%N])).1
        = Thrown Sample.denied
        ∧ trace (runWith (answering Sample.world) 0
                   (validateClientForSecrets (M := Sample.modes)
                      Sample.tokenContext [1%N; 2%N] ["write"]))
          = [Called (Secret_find_id_in [1%N; 2%N])])
     ∨ ∃ (c : ExtCall unit) (d : nat),
         isValidatorCall (Called c) = true
         ∧ Called c ∈ trace (runWith (answering Sample.world) 0
                               (validateClientForSecrets (M := Sample.modes)
                                  Sample.tokenContext [1%N; 2%N] ["write"]))
         ∧ (answering Sample.world d _ c).1 = Thrown Sample.denied).
Proof.
  split; [reflexivity|].
  exact (validateClientForSecrets_failure_origin
           (M := Sample.modes) (answering Sample.world) 0 Sample.tokenContext
           [1%N; 2%N] ["write"] Sample.denied eq_refl).
Defined.

Lemma acceptedRoles_ignored_unless_user_witness :
  run Sample.world 0
    (validateClientForSecret (M := Sample.modes)
       Sample.robotContext 1%N [admin] ["read"])
  = run Sample.world 0
      (validateClientForSecret (M := Sample.modes)
         Sample.robotContext 1%N [] ["read"]).
Proof.
  exact (acceptedRoles_ignored_unless_user
           (M := Sample.modes) Sample.world 0 Sample.robotContext 1%N
           [admin] [] ["read"] eq_refl).
Defined.

Lemma serviceAccount_dispatch_witness :
  trace (run Sample.world 0
           (validateClientForSecret (M := Sample.modes)
              Sample.robotContext 2%N [member] ["read"; "write"]))
  = [Called (Secret_findById 2%N);
     Called (validateServiceAccountClientForWorkspace
               Sample.robot Sample.W1 "dev" ["read"; "write"])]
  ∧ trace (run Sample.world 0
             (validateClientForSecrets (M := Sample.modes)
                Sample.robotContext [1%N; 2%N] ["read"; "write"]))
    = [Called (Secret_find_id_in [1%N; 2%N]);
       Called (validateServiceAccountClientForSecrets
                 Sample.robot (findIn Sample.world [1%N; 2%N])
                 ["read"; "write"])].
Proof.
  exact (serviceAccount_dispatch
           (M := Sample.modes) Sample.world 0 Sample.robot 2%N Sample.S2
           [1%N; 2%N] [member] ["read"; "write"] eq_refl eq_refl).
Defined.

Lemma user_dispatch_witness :
  trace (run Sample.world 0
           (validateClientForSecret (M := Sample.modes)
              Sample.aliceApiKey 1%N [admin] ["read"]))
  = [Called (Secret_findById 1%N);
     Called (validateUserClientForSecret
               Sample.alice Sample.S1 [admin] ["read"])]
  ∧ trace (run Sample.world 0
             (validateClientForSecrets (M := Sample.modes)
                Sample.aliceApiKey [1%N; 2%N] ["read"]))
    = [Called (Secret_find_id_in [1%N; 2%N]);
       Called (validateUserClientForSecrets
                 Sample.alice (findIn Sample.world [1%N; 2%N]) ["read"])].
Proof.
  exact (user_dispatch
           (M := Sample.modes) Sample.world 0 "apiKey" Sample.alice 1%N
           Sample.S1 [1%N; 2%N] [admin] ["read"] eq_refl eq_refl eq_refl).
Defined.
